(** * nanobot: the OpenAI-compatible provider

    A shallow embedding of [nanobot/providers/openai_provider.py]: the
    construction of the provider (API-key resolution), the request
    parameters that [chat] assembles, the [try]/[except] boundary around
    the network call, and [_parse_response].

    Python values are an inductive type, dictionaries with string keys
    that the code updates in place are [gmap string _], exceptions are
    explicit through a small error monad. *)

From Stdlib Require Import ZArith Ascii String List Floats.SpecFloat.
From stdpp Require Import base option list strings gmap fin_maps.

Local Open Scope string_scope.
Local Open Scope Z_scope.
Set Warnings "-register-all".

(** ** Python values *)

(** The JSON-like values that travel through the adapter untouched:
    messages, tool schemas, decoded tool-call arguments, request
    parameters.  A [dict] literal keeps its insertion order. *)
Inductive pyval : Type :=
  | PNone
  | PBool (b : bool)
  | PInt (z : Z)
  | PFloat (f : spec_float)
  | PStr (s : string)
  | PList (l : list pyval)
  | PDict (d : list (string * pyval)).

(** ** Strings: [str.lower], [in], [str.startswith] *)

Module Str.

(** [c.lower()] on one byte: the letters [A]..[Z] move to [a]..[z],
    every other byte (also the bytes of a multi-byte UTF-8 character)
    stays.  No character outside ASCII lowers to [g], [l] or [m], so
    the test of [chat] sees what Python sees. *)
Definition lower_ascii (c : ascii) : ascii :=
  let n := nat_of_ascii c in
  if (Nat.leb 65 n && Nat.leb n 90)%bool then ascii_of_nat (n + 32) else c.

Fixpoint lower (s : string) : string :=
  match s with
  | EmptyString => EmptyString
  | String c s' => String (lower_ascii c) (lower s')
  end.

(** [s.startswith(p)] *)
Fixpoint startswith (p s : string) : bool :=
  match p, s with
  | EmptyString, _ => true
  | String a p', String b s' => if Ascii.eqb a b then startswith p' s' else false
  | String _ _, EmptyString => false
  end.

(** [needle in hay] *)
Fixpoint contains (needle hay : string) : bool :=
  if startswith needle hay then true
  else match hay with
       | EmptyString => false
       | String _ hay' => contains needle hay'
       end.

(** The relation [contains] decides. *)
Definition substring (needle hay : string) : Prop :=
  exists pre post, hay = pre +:+ needle +:+ post.

(** [needle] occurs in [hay] up to the case of ASCII letters. *)
Definition substring_nocase (needle hay : string) : Prop :=
  exists pre mid post, hay = pre +:+ mid +:+ post /\ lower mid = lower needle.

End Str.

(** ** Exceptions and results *)

(** An instance of a subclass of Python's [Exception]: its class and the
    text [str(e)] gives. *)
Inductive exn_class : Type :=
  | IndexError
  | JSONDecodeError
  | OtherError (name : string).

Record exn : Type := Exn { exn_cls : exn_class; exn_str : string }.

(** A computation either returns a value or raises. *)
Inductive result (A : Type) : Type :=
  | Ok (a : A)
  | Raise (e : exn).
Arguments Ok {A} a.
Arguments Raise {A} e.

#[export] Instance result_ret : MRet result := fun A a => Ok a.

#[export] Instance result_bind : MBind result := fun A B k m =>
  match m with
  | Ok a => k a
  | Raise e => Raise e
  end.

(** [try: body except Exception as e: handler e] *)
Definition try_except {A} (body : result A) (handler : exn -> result A) : result A :=
  match body with
  | Ok a => Ok a
  | Raise e => handler e
  end.

(** [isinstance(e, json.JSONDecodeError)] *)
Definition is_JSONDecodeError (e : exn) : bool :=
  match exn_cls e with
  | JSONDecodeError => true
  | _ => false
  end.

(** [try: body except <class>: handler], for the classes that [caught]
    selects: an exception of another class leaves the statement. *)
Definition try_except_only {A} (caught : exn -> bool) (body : result A)
    (handler : exn -> result A) : result A :=
  match body with
  | Ok a => Ok a
  | Raise e => if caught e then handler e else Raise e
  end.

(** [for x in xs: <body>] over a state: the first exception ends the
    loop. *)
Fixpoint for_each {A S} (body : S -> A -> result S) (xs : list A) (state : S)
  : result S :=
  match xs with
  | [] => Ok state
  | x :: xs' => state' ← body state x; for_each body xs' state'
  end.

(** [l[0]] on a list. *)
Definition first_item {A} (l : list A) : result A :=
  match l with
  | x :: _ => Ok x
  | [] => Raise (Exn IndexError "list index out of range")
  end.

(** [x or d] on an optional string: [None] and the empty string are falsy. *)
Definition str_or (x : option string) (d : string) : string :=
  match x with
  | Some (String c s) => String c s
  | Some EmptyString | None => d
  end.

(** [s[1:]] *)
Definition str_tail (s : string) : string :=
  match s with
  | EmptyString => EmptyString
  | String _ s' => s'
  end.

(** ** The normalized contract *)

(** Modelled from the spec: [ToolCallRequest] of
    [nanobot/providers/base.py], a plain data holder with the fields
    [id], [name] and [arguments]. *)
Module ToolCallRequest.
Record t : Type := mk {
  id : string;
  name : string;
  arguments : pyval
}.
End ToolCallRequest.

(** Modelled from the spec: [LLMResponse] of
    [nanobot/providers/base.py]: text content, the requested tool calls
    in order, the finish reason and the token-usage mapping.  The tool
    calls default to the empty list and the usage to the empty mapping
    when the constructor is not given them. *)
Module LLMResponse.
Record t : Type := mk {
  content : string;
  tool_calls : list ToolCallRequest.t;
  finish_reason : string;
  usage : gmap string Z
}.

(** [LLMResponse(content=c, finish_reason=f)] *)
Definition mk_default (c f : string) : t := mk c [] f ∅.
End LLMResponse.

(** ** The vendor's side: the OpenAI SDK objects that the adapter reads *)

Module Vendor.

(** [tc.function]: the tool's name and its argument payload, a string
    on the wire; the code also lets a payload through that is not a
    string. *)
Record Function : Type := mkFunction {
  name : string;
  arguments : pyval
}.

Record ToolCall : Type := mkToolCall {
  id : string;
  function : Function
}.

(** [choice.message].  [tool_calls] is [None] when the attribute is
    missing or null; [reasoning_content] is the model's thinking text. *)
Record Message : Type := mkMessage {
  content : option string;
  tool_calls : option (list ToolCall);
  reasoning_content : option string
}.

Record Choice : Type := mkChoice {
  message : Message;
  finish_reason : option string
}.

Record CompletionUsage : Type := mkUsage {
  prompt_tokens : Z;
  completion_tokens : Z;
  total_tokens : Z
}.

(** The reply of [client.chat.completions.create].  [usage] is [None]
    when the attribute is missing or null. *)
Record ChatCompletion : Type := mkCompletion {
  choices : list Choice;
  usage : option CompletionUsage
}.

End Vendor.

(** The SDK client built by [__init__]: what it was constructed with. *)
Module AsyncOpenAI.
Record t : Type := mk {
  base_url : string;
  api_key : string
}.
End AsyncOpenAI.

(** The provider object: the configuration kept by the base class, the
    default model, and the client. *)
Module OpenAIProvider.
Record t : Type := mk {
  api_key : option string;
  api_base : option string;
  default_model : string;
  client : AsyncOpenAI.t
}.
End OpenAIProvider.

(** The parameter names of [chat]: a keyword argument with one of these
    names binds that parameter, so [**extra_kwargs] never holds them. *)
Definition chat_params : list string :=
  ["self"; "messages"; "tools"; "model"; "max_tokens"; "temperature";
   "enable_thinking"].

Definition wf_extra_kwargs (extra_kwargs : gmap string pyval) : Prop :=
  Forall (fun k => extra_kwargs !! k = None) chat_params.

(** The [extra_body] that switches extended reasoning on. *)
Definition thinking_extra_body : pyval :=
  PDict [("chat_template_kwargs",
          PDict [("enable_thinking", PBool true);
                 ("clear_thinking", PBool false)])].

(** Truth value of [tools]: [None] and the empty list are falsy. *)
Definition tools_truthy (tools : option (list pyval)) : bool :=
  match tools with
  | Some (_ :: _) => true
  | Some [] | None => false
  end.

(** ** Construction *)

(** [os.getenv(name, default)] over the process environment. *)
Definition getenv (environ : gmap string string) (name dflt : string) : string :=
  default dflt (environ !! name).

(** The local [key] of [__init__] after the [$NAME] indirection. *)
Definition init_key (environ : gmap string string) (api_key : option string)
  : option string :=
  match api_key with
  | Some k =>
      if (negb (String.eqb k "") && Str.startswith "$" k)%bool
      then Some (getenv environ (str_tail k) k)
      else Some k
  | None => None
  end.

Definition __init__ (environ : gmap string string)
    (api_key api_base : option string) (default_model : string)
  : OpenAIProvider.t :=
  let base_url := str_or api_base "https://integrate.api.nvidia.com/v1" in
  let key := init_key environ api_key in
  OpenAIProvider.mk api_key api_base default_model
    (AsyncOpenAI.mk base_url (str_or key "dummy-key")).

Definition get_default_model (self : OpenAIProvider.t) : string :=
  OpenAIProvider.default_model self.

(** ** [chat] and [_parse_response] *)

Section Adapter.

(** [json.loads] on a string: the decoded value, or the exception it
    raises: [json.JSONDecodeError] when the text is not valid JSON, and
    now and then another one ([RecursionError] on deep nesting,
    [ValueError] on an integer literal of more than 4300 digits). *)
Variable json_loads : string -> result pyval.

(** [client.chat.completions.create] applied to the keyword arguments
    and awaited: the vendor's reply, or the exception the call raises. *)
Variable create :
  AsyncOpenAI.t -> gmap string pyval -> result Vendor.ChatCompletion.

(** Lines 118-124: a string payload is decoded, with the raw text kept
    under ["raw"] when [json.loads] raises [JSONDecodeError], the one
    class the [except] clause names; any other payload is passed on. *)
Definition parse_arguments (args : pyval) : result pyval :=
  match args with
  | PStr s =>
      try_except_only is_JSONDecodeError (json_loads s)
        (fun _ => mret (PDict [("raw", PStr s)]))
  | _ => mret args
  end.

(** Lines 118-130: the [ToolCallRequest] built for one vendor tool call. *)
Definition tool_call_request (tc : Vendor.ToolCall)
  : result ToolCallRequest.t :=
  args ← parse_arguments (Vendor.arguments (Vendor.function tc));
  mret (ToolCallRequest.mk (Vendor.id tc) (Vendor.name (Vendor.function tc))
          args).

(** The body of the loop over [message.tool_calls]. *)
Definition append_tool_call (tool_calls : list ToolCallRequest.t)
    (tc : Vendor.ToolCall) : result (list ToolCallRequest.t) :=
  request ← tool_call_request tc;
  mret (tool_calls ++ [request])%list.

Definition _parse_response (response : Vendor.ChatCompletion)
  : result LLMResponse.t :=
  choice ← first_item (Vendor.choices response);
  let message := Vendor.message choice in
  let content := str_or (Vendor.content message) "" in
  tool_calls ←
    match Vendor.tool_calls message with
    | Some tcs => for_each append_tool_call tcs []
    | None => mret []
    end;
  let usage :=
    match Vendor.usage response with
    | Some u =>
        {[ "prompt_tokens" := Vendor.prompt_tokens u;
           "completion_tokens" := Vendor.completion_tokens u;
           "total_tokens" := Vendor.total_tokens u ]}
    | None => ∅
    end in
  mret (LLMResponse.mk content tool_calls
          (str_or (Vendor.finish_reason choice) "stop") usage).

(** Lines 65-91 of [chat]: the keyword arguments handed to the SDK. *)
Definition chat_kwargs (self : OpenAIProvider.t)
    (messages : list pyval) (tools : option (list pyval))
    (model : option string) (max_tokens : Z) (temperature : spec_float)
    (enable_thinking : bool) (extra_kwargs : gmap string pyval)
  : gmap string pyval :=
  let model := str_or model (OpenAIProvider.default_model self) in
  let kwargs : gmap string pyval :=
    {[ "model" := PStr model;
       "messages" := PList messages;
       "temperature" := PFloat temperature;
       "max_tokens" := PInt max_tokens;
       "stream" := PBool false ]} in
  let kwargs :=
    if (enable_thinking && Str.contains "glm" (Str.lower model))%bool
    then <["extra_body" := thinking_extra_body]> kwargs
    else kwargs in
  let kwargs :=
    if tools_truthy tools
    then <["tool_choice" := PStr "auto"]>
           (<["tools" := PList (default [] tools)]> kwargs)
    else kwargs in
  (* kwargs.update(extra_kwargs): the caller's entries win *)
  extra_kwargs ∪ kwargs.

Definition chat (self : OpenAIProvider.t)
    (messages : list pyval) (tools : option (list pyval))
    (model : option string) (max_tokens : Z) (temperature : spec_float)
    (enable_thinking : bool) (extra_kwargs : gmap string pyval)
  : result LLMResponse.t :=
  let kwargs :=
    chat_kwargs self messages tools model max_tokens temperature
      enable_thinking extra_kwargs in
  try_except
    (response ← create (OpenAIProvider.client self) kwargs;
     _parse_response response)
    (fun e =>
       mret (LLMResponse.mk_default
               ("Error calling LLM: " +:+ exn_str e) "error")).

End Adapter.

(** ** Views used to state the properties *)

(** A message, a choice and a reply with the thinking text blanked:
    two replies that differ in their thinking text only have the same
    image. *)
Definition forget_reasoning_message (m : Vendor.Message) : Vendor.Message :=
  Vendor.mkMessage (Vendor.content m) (Vendor.tool_calls m) None.

Definition forget_reasoning_choice (c : Vendor.Choice) : Vendor.Choice :=
  Vendor.mkChoice (forget_reasoning_message (Vendor.message c))
    (Vendor.finish_reason c).

Definition forget_reasoning (r : Vendor.ChatCompletion) : Vendor.ChatCompletion :=
  Vendor.mkCompletion (map forget_reasoning_choice (Vendor.choices r))
    (Vendor.usage r).

(** [json.loads] returns on the payload, or raises the one exception
    that line 123 catches. *)
Definition payload_safe (json_loads : string -> result pyval) (args : pyval)
  : bool :=
  match args with
  | PStr s =>
      match json_loads s with
      | Ok _ => true
      | Raise e => is_JSONDecodeError e
      end
  | _ => true
  end.

Definition payloads_safe (json_loads : string -> result pyval)
    (tcs : list Vendor.ToolCall) : bool :=
  forallb
    (fun tc => payload_safe json_loads (Vendor.arguments (Vendor.function tc)))
    tcs.

(** What a safe payload is normalized to. *)
Definition normalized_arguments (json_loads : string -> result pyval)
    (args : pyval) : pyval :=
  match args with
  | PStr s =>
      match json_loads s with
      | Ok v => v
      | Raise _ => PDict [("raw", PStr s)]
      end
  | _ => args
  end.

Definition normalized_request (json_loads : string -> result pyval)
    (tc : Vendor.ToolCall) : ToolCallRequest.t :=
  ToolCallRequest.mk (Vendor.id tc) (Vendor.name (Vendor.function tc))
    (normalized_arguments json_loads (Vendor.arguments (Vendor.function tc))).

(** The requests of a list of tool calls, the first exception ending the
    traversal: what the loop of [_parse_response] computes. *)
Fixpoint tool_call_requests (json_loads : string -> result pyval)
    (tcs : list Vendor.ToolCall) : result (list ToolCallRequest.t) :=
  match tcs with
  | [] => Ok []
  | tc :: tcs' =>
      request ← tool_call_request json_loads tc;
      requests ← tool_call_requests json_loads tcs';
      mret (request :: requests)
  end.

(** Lines 133-139 as a function of the usage block. *)
Definition normalized_usage (usage : option Vendor.CompletionUsage)
  : gmap string Z :=
  match usage with
  | Some u =>
      {[ "prompt_tokens" := Vendor.prompt_tokens u;
         "completion_tokens" := Vendor.completion_tokens u;
         "total_tokens" := Vendor.total_tokens u ]}
  | None => ∅
  end.

(** The usage mapping read key by key. *)
Definition usage_triple (u : Vendor.CompletionUsage) (k : string) : option Z :=
  if String.eqb k "prompt_tokens" then Some (Vendor.prompt_tokens u)
  else if String.eqb k "completion_tokens" then Some (Vendor.completion_tokens u)
  else if String.eqb k "total_tokens" then Some (Vendor.total_tokens u)
  else None.

(** ** Concrete collaborators for the examples *)

(** [s * n] *)
Fixpoint str_repeat (s : string) (n : nat) : string :=
  match n with
  | O => ""
  | S n' => s +:+ str_repeat s n'
  end.

(** The number of [[] the text opens with. *)
Fixpoint leading_brackets (s : string) : nat :=
  match s with
  | String "["%char s' => S (leading_brackets s')
  | _ => O
  end.

Definition is_digit (c : ascii) : bool :=
  let n := nat_of_ascii c in (Nat.leb 48 n && Nat.leb n 57)%bool.

Fixpoint all_digits (s : string) : bool :=
  match s with
  | EmptyString => true
  | String c s' => (is_digit c && all_digits s')%bool
  end.

(** An integer literal: digits, the first of them not [0]. *)
Definition is_integer_literal (s : string) : bool :=
  match s with
  | String c s' =>
      (is_digit c && negb (Ascii.eqb c "0") && all_digits s')%bool
  | EmptyString => false
  end.

(** A decoder that agrees with [json.loads] on the texts the examples
    use: the five literals below decode; more than 1000 opening brackets
    exhaust the recursion limit; an integer literal of more than 4300
    digits is refused by the integer conversion; anything else is
    rejected as invalid JSON.  The texts of the exceptions are
    shortened. *)
Definition json_loads_literals (s : string) : result pyval :=
  if String.eqb s "null" then Ok PNone
  else if String.eqb s "true" then Ok (PBool true)
  else if String.eqb s "false" then Ok (PBool false)
  else if String.eqb s "{}" then Ok (PDict [])
  else if String.eqb s "[]" then Ok (PList [])
  else if Nat.ltb 1000 (leading_brackets s)
  then Raise (Exn (OtherError "RecursionError")
                "maximum recursion depth exceeded")
  else if (is_integer_literal s && Nat.ltb 4300 (String.length s))%bool
  then Raise (Exn (OtherError "ValueError")
                "Exceeds the limit (4300 digits) for integer string conversion")
  else Raise (Exn JSONDecodeError "Expecting value").

(** A network that answers every request the same way. *)
Definition create_const (reply : result Vendor.ChatCompletion)
  : AsyncOpenAI.t -> gmap string pyval -> result Vendor.ChatCompletion :=
  fun _ _ => reply.

(** A network that echoes whether streaming was asked for: it fails
    when the request carries [stream=True] and answers an empty choice
    list otherwise. *)
Definition create_no_stream
  : AsyncOpenAI.t -> gmap string pyval -> result Vendor.ChatCompletion :=
  fun _ kwargs =>
    match kwargs !! "stream" with
    | Some (PBool true) => Raise (Exn (OtherError "APIError") "streaming refused")
    | _ => Ok (Vendor.mkCompletion [] None)
    end.

Definition user_message (text : string) : pyval :=
  PDict [("role", PStr "user"); ("content", PStr text)].

(** [temperature=1.0] *)
Definition one_float : spec_float := S754_finite false 4503599627370496 (-52).

Definition nvidia : OpenAIProvider.t := __init__ ∅ None None "z-ai/glm4.7".

Definition sample_usage : Vendor.CompletionUsage := Vendor.mkUsage 10 5 15.

Definition sample_tool_call : Vendor.ToolCall :=
  Vendor.mkToolCall "call_1" (Vendor.mkFunction "search" (PStr "{bad")).

Definition sample_choice (reasoning : option string) : Vendor.Choice :=
  Vendor.mkChoice
    (Vendor.mkMessage (Some "hello") (Some [sample_tool_call]) reasoning)
    None.

Definition sample_reply (reasoning : option string) : Vendor.ChatCompletion :=
  Vendor.mkCompletion [sample_choice reasoning] (Some sample_usage).

Definition bare_reply : Vendor.ChatCompletion :=
  Vendor.mkCompletion [sample_choice None] None.

Definition connection_error : exn :=
  Exn (OtherError "APIConnectionError") "Connection error.".

Definition gpt4_thinking_kwargs : gmap string pyval :=
  chat_kwargs nvidia [user_message "hi"] None (Some "gpt-4") 16384 one_float
    true {[ "extra_body" := thinking_extra_body ]}.

Definition streaming_kwargs : gmap string pyval :=
  chat_kwargs nvidia [user_message "hi"] None None 16384 one_float
    true {[ "stream" := PBool true ]}.

Definition search_tool : pyval :=
  PDict [("type", PStr "function");
         ("function", PDict [("name", PStr "search")])].

(** A reply whose three tool calls carry a payload that decodes, one
    that does not, and one that is already a dictionary; two more choices
    follow the first. *)
Definition decoded_tool_call : Vendor.ToolCall :=
  Vendor.mkToolCall "call_2" (Vendor.mkFunction "list_dir" (PStr "{}")).

Definition structured_tool_call : Vendor.ToolCall :=
  Vendor.mkToolCall "call_3"
    (Vendor.mkFunction "read_file" (PDict [("path", PStr "a.txt")])).

Definition tools_choice : Vendor.Choice :=
  Vendor.mkChoice
    (Vendor.mkMessage None
       (Some [decoded_tool_call; sample_tool_call; structured_tool_call])
       None)
    (Some "tool_calls").

Definition tools_reply : Vendor.ChatCompletion :=
  Vendor.mkCompletion [tools_choice; sample_choice None] None.

(** A reply whose finish reason is the empty string and whose usage
    block counts nothing. *)
Definition idle_choice : Vendor.Choice :=
  Vendor.mkChoice (Vendor.mkMessage (Some "") None None) (Some "").

Definition idle_reply : Vendor.ChatCompletion :=
  Vendor.mkCompletion [idle_choice] (Some (Vendor.mkUsage 0 0 0)).

(** A tool call whose payload opens 1100 brackets, which is not valid
    JSON, and one whose payload is an integer of 4301 digits. *)
Definition nested_tool_call : Vendor.ToolCall :=
  Vendor.mkToolCall "call_4"
    (Vendor.mkFunction "search" (PStr (str_repeat "[" 1100))).

Definition nested_choice : Vendor.Choice :=
  Vendor.mkChoice
    (Vendor.mkMessage None
       (Some [decoded_tool_call; nested_tool_call; structured_tool_call])
       None)
    (Some "tool_calls").

Definition nested_reply : Vendor.ChatCompletion :=
  Vendor.mkCompletion [nested_choice] None.

Definition huge_integer_tool_call : Vendor.ToolCall :=
  Vendor.mkToolCall "call_5"
    (Vendor.mkFunction "add" (PStr (str_repeat "1" 4301))).

(** A reply with neither a finish reason nor a usage block, and that
    tool call. *)
Definition huge_integer_choice : Vendor.Choice :=
  Vendor.mkChoice
    (Vendor.mkMessage (Some "hello") (Some [huge_integer_tool_call]) None)
    None.

Definition huge_integer_reply : Vendor.ChatCompletion :=
  Vendor.mkCompletion [huge_integer_choice] None.

Ltac solve_wf_extra :=
  unfold wf_extra_kwargs, chat_params;
  repeat (apply Forall_cons; split; [vm_compute; reflexivity|]);
  apply Forall_nil_2.

(** * Properties *)

(** ** Strings *)

Module StrFacts.
Import Str.

Lemma append_cons c s t : String c s +:+ t = String c (s +:+ t).
Proof. reflexivity. Qed.

Lemma append_nil t : "" +:+ t = t.
Proof. reflexivity. Qed.

Lemma startswith_spec p s :
  startswith p s = true <-> exists r, s = p +:+ r.
Proof.
  revert s. induction p as [|a p IH]; intros s; simpl.
  - split; [eauto | done].
  - destruct s as [|b s].
    + split; [done | intros [r Hr]; discriminate].
    + destruct (Ascii.eqb_spec a b) as [->|Hne].
      * rewrite IH.
        split; intros [r Hr]; exists r; rewrite append_cons in *; congruence.
      * split; [done | intros [r Hr]; rewrite append_cons in Hr; congruence].
Qed.

Lemma contains_unfold needle hay :
  contains needle hay =
    if startswith needle hay then true
    else match hay with
         | EmptyString => false
         | String _ hay' => contains needle hay'
         end.
Proof. by destruct hay. Qed.

Lemma contains_spec needle hay :
  contains needle hay = true <-> substring needle hay.
Proof.
  split.
  - induction hay as [|c hay IH]; rewrite contains_unfold;
      destruct (startswith needle _) eqn:Hs; try done.
    + apply startswith_spec in Hs as [r ->]. by exists "", r.
    + apply startswith_spec in Hs as [r ->]. by exists "", r.
    + intros [pre [post ->]]%IH. by exists (String c pre), post.
  - intros (pre & post & ->).
    induction pre as [|c pre IH]; rewrite contains_unfold.
    + replace (startswith needle _) with true; [done|].
      symmetry. apply startswith_spec. by exists post.
    + destruct (startswith needle _); [done | apply IH].
Qed.

Lemma lower_app s t : lower (s +:+ t) = lower s +:+ lower t.
Proof. induction s as [|c s IH]; simpl; [done | by rewrite IH]. Qed.

Lemma lower_app_inv s a b :
  lower s = a +:+ b ->
  exists s1 s2, s = s1 +:+ s2 /\ lower s1 = a /\ lower s2 = b.
Proof.
  revert s. induction a as [|c a IH]; intros s Hs.
  - by exists "", s.
  - destruct s as [|d s]; [done|]. simpl in Hs. injection Hs as Hc Hs.
    destruct (IH _ Hs) as (s1 & s2 & -> & <- & <-).
    exists (String d s1), s2. simpl. by rewrite Hc.
Qed.

Lemma lower_ascii_idemp c : lower_ascii (lower_ascii c) = lower_ascii c.
Proof. by destruct c as [[] [] [] [] [] [] [] []]. Qed.

Lemma lower_idemp s : lower (lower s) = lower s.
Proof.
  induction s as [|c s IH]; simpl; [done|].
  by rewrite lower_ascii_idemp, IH.
Qed.

(** The test [needle.lower() in hay.lower()] is containment up to case. *)
Lemma contains_lower_nocase needle hay :
  contains (lower needle) (lower hay) = true <-> substring_nocase needle hay.
Proof.
  rewrite contains_spec. split.
  - intros (pre & post & H).
    apply lower_app_inv in H as (s1 & s23 & -> & <- & H).
    apply lower_app_inv in H as (s2 & s3 & -> & H & <-).
    by exists s1, s2, s3.
  - intros (pre & mid & post & -> & H).
    exists (lower pre), (lower post). by rewrite !lower_app, H.
Qed.

End StrFacts.

(** ** [_parse_response] *)

Section ParseFacts.

Variable json_loads : string -> result pyval.

(** The loop appends the requests of the tool calls, in order, and
    stops at the first exception. *)
Lemma for_each_append_tool_call tcs acc :
  for_each (append_tool_call json_loads) tcs acc
  = (requests ← tool_call_requests json_loads tcs;
     Ok (acc ++ requests)%list).
Proof.
  revert acc. induction tcs as [|tc tcs IH]; intros acc; simpl.
  - by rewrite app_nil_r.
  - unfold append_tool_call.
    destruct (tool_call_request json_loads tc) as [request|e]; simpl; [|done].
    rewrite IH. destruct (tool_call_requests json_loads tcs); simpl; [|done].
    by rewrite <- app_assoc.
Qed.

Lemma parse_arguments_safe args :
  payload_safe json_loads args = true ->
  parse_arguments json_loads args = Ok (normalized_arguments json_loads args).
Proof.
  destruct args as [| | | |s| |]; try done. simpl.
  destruct (json_loads s) as [v|e]; simpl; [done|]. by intros ->.
Qed.

Lemma parse_arguments_ok args v :
  parse_arguments json_loads args = Ok v ->
  payload_safe json_loads args = true /\
  v = normalized_arguments json_loads args.
Proof.
  destruct args as [| | | |s| |]; simpl; try by intros [= <-].
  destruct (json_loads s) as [w|e]; simpl; [by intros [= <-]|].
  destruct (is_JSONDecodeError e); [by intros [= <-] | done].
Qed.

Lemma tool_call_request_ok tc request :
  tool_call_request json_loads tc = Ok request ->
  payload_safe json_loads (Vendor.arguments (Vendor.function tc)) = true /\
  request = normalized_request json_loads tc.
Proof.
  unfold tool_call_request, normalized_request.
  destruct (parse_arguments json_loads _) as [v|e] eqn:Hargs; simpl; [|done].
  apply parse_arguments_ok in Hargs as [Hsafe ->]. by intros [= <-].
Qed.

Lemma tool_call_requests_safe tcs :
  payloads_safe json_loads tcs = true ->
  tool_call_requests json_loads tcs = Ok (map (normalized_request json_loads) tcs).
Proof.
  induction tcs as [|tc tcs IH]; simpl; [done|].
  intros [Hsafe Hrest]%andb_prop. unfold tool_call_request at 1.
  rewrite (parse_arguments_safe _ Hsafe). simpl. by rewrite (IH Hrest).
Qed.

Lemma tool_call_requests_ok tcs requests :
  tool_call_requests json_loads tcs = Ok requests ->
  payloads_safe json_loads tcs = true /\
  requests = map (normalized_request json_loads) tcs.
Proof.
  revert requests. induction tcs as [|tc tcs IH]; intros requests; simpl.
  - by intros [= <-].
  - destruct (tool_call_request json_loads tc) as [request|e] eqn:Htc;
      simpl; [|done].
    apply tool_call_request_ok in Htc as [-> ->].
    destruct (tool_call_requests json_loads tcs) as [rs|e]; simpl; [|done].
    destruct (IH rs eq_refl) as [-> ->]. by intros [= <-].
Qed.

(** The exception of the first payload that is not safe leaves the
    traversal. *)
Lemma tool_call_requests_raise before tc after s e :
  payloads_safe json_loads before = true ->
  Vendor.arguments (Vendor.function tc) = PStr s ->
  json_loads s = Raise e ->
  is_JSONDecodeError e = false ->
  tool_call_requests json_loads (before ++ tc :: after)%list = Raise e.
Proof.
  intros Hbefore Hargs Hraise Hclass.
  induction before as [|tc' before IH]; simpl.
  - unfold tool_call_request, parse_arguments.
    by rewrite Hargs, Hraise; simpl; rewrite Hclass.
  - simpl in Hbefore. apply andb_prop in Hbefore as [Hsafe Hrest].
    unfold tool_call_request at 1. rewrite (parse_arguments_safe _ Hsafe).
    simpl. by rewrite (IH Hrest).
Qed.

(** With a first choice, the outcome is that of the tool calls, and
    each other field is read off the reply. *)
Lemma parse_first_choice response choice rest :
  Vendor.choices response = choice :: rest ->
  _parse_response json_loads response =
    (requests ←
       tool_call_requests json_loads
         (default [] (Vendor.tool_calls (Vendor.message choice)));
     Ok (LLMResponse.mk
           (str_or (Vendor.content (Vendor.message choice)) "")
           requests
           (str_or (Vendor.finish_reason choice) "stop")
           (normalized_usage (Vendor.usage response)))).
Proof.
  intros Hc. unfold _parse_response. rewrite Hc. simpl.
  destruct (Vendor.tool_calls _) as [tcs|]; simpl; [|done].
  rewrite for_each_append_tool_call.
  by destruct (tool_call_requests json_loads tcs).
Qed.

Lemma parse_first_choice_safe response choice rest :
  Vendor.choices response = choice :: rest ->
  payloads_safe json_loads
    (default [] (Vendor.tool_calls (Vendor.message choice))) = true ->
  _parse_response json_loads response =
    Ok (LLMResponse.mk
          (str_or (Vendor.content (Vendor.message choice)) "")
          (map (normalized_request json_loads)
             (default [] (Vendor.tool_calls (Vendor.message choice))))
          (str_or (Vendor.finish_reason choice) "stop")
          (normalized_usage (Vendor.usage response))).
Proof.
  intros Hc Hsafe. rewrite (parse_first_choice response choice rest Hc).
  by rewrite (tool_call_requests_safe _ Hsafe).
Qed.

Lemma parse_no_choice response :
  Vendor.choices response = [] ->
  _parse_response json_loads response = Raise (Exn IndexError "list index out of range").
Proof. intros Hc. unfold _parse_response. by rewrite Hc. Qed.

(** What a returned response was read from. *)
Lemma parse_ok_inv response r :
  _parse_response json_loads response = Ok r ->
  exists choice rest,
    Vendor.choices response = choice :: rest /\
    payloads_safe json_loads
      (default [] (Vendor.tool_calls (Vendor.message choice))) = true /\
    r = LLMResponse.mk
          (str_or (Vendor.content (Vendor.message choice)) "")
          (map (normalized_request json_loads)
             (default [] (Vendor.tool_calls (Vendor.message choice))))
          (str_or (Vendor.finish_reason choice) "stop")
          (normalized_usage (Vendor.usage response)).
Proof.
  destruct (Vendor.choices response) as [|choice rest] eqn:Hc.
  - by rewrite (parse_no_choice response Hc).
  - rewrite (parse_first_choice response choice rest Hc).
    destruct (tool_call_requests json_loads _) as [requests|e] eqn:Hreq;
      simpl; [|done].
    apply tool_call_requests_ok in Hreq as [Hsafe ->].
    intros [= <-]. by exists choice, rest.
Qed.

Lemma normalized_usage_lookup u k :
  normalized_usage (Some u) !! k = usage_triple u k.
Proof.
  unfold usage_triple, normalized_usage.
  destruct (String.eqb_spec k "prompt_tokens") as [->|?];
    [by simplify_map_eq|].
  destruct (String.eqb_spec k "completion_tokens") as [->|?];
    [by simplify_map_eq|].
  destruct (String.eqb_spec k "total_tokens") as [->|?];
    by simplify_map_eq.
Qed.

Lemma normalized_usage_size u : size (normalized_usage (Some u)) = 3%nat.
Proof.
  unfold normalized_usage.
  rewrite !map_size_insert_None, map_size_singleton; [done|..];
    by simplify_map_eq.
Qed.

(** C3, amended: a tool call whose argument payload is a string on
    which [json.loads] raises [JSONDecodeError] is normalized to a request
    with the same id and name and the arguments [{"raw": <the string>}];
    a parsed response holds it at the same position; and the response is
    parsed when no payload of the first choice makes [json.loads] raise an
    exception of another class. *)
Theorem parse_invalid_json_arguments response choice rest tcs (i : nat) tc s e :
  Vendor.choices response = choice :: rest ->
  Vendor.tool_calls (Vendor.message choice) = Some tcs ->
  tcs !! i = Some tc ->
  Vendor.arguments (Vendor.function tc) = PStr s ->
  json_loads s = Raise e ->
  exn_cls e = JSONDecodeError ->
  let raw :=
    ToolCallRequest.mk (Vendor.id tc) (Vendor.name (Vendor.function tc))
      (PDict [("raw", PStr s)]) in
  tool_call_request json_loads tc = Ok raw /\
  (forall r, _parse_response json_loads response = Ok r ->
     LLMResponse.tool_calls r !! i = Some raw /\
     length (LLMResponse.tool_calls r) = length tcs) /\
  (payloads_safe json_loads tcs = true ->
   exists r, _parse_response json_loads response = Ok r).
Proof.
  intros Hc Htcs Hi Hargs Hbad Hclass raw. subst raw.
  assert (is_JSONDecodeError e = true) as Hcaught
    by (unfold is_JSONDecodeError; by rewrite Hclass).
  assert (normalized_request json_loads tc
          = ToolCallRequest.mk (Vendor.id tc) (Vendor.name (Vendor.function tc))
              (PDict [("raw", PStr s)])) as Hraw.
  { unfold normalized_request, normalized_arguments. by rewrite Hargs, Hbad. }
  split; [|split].
  - unfold tool_call_request, parse_arguments.
    rewrite Hargs, Hbad. simpl. by rewrite Hcaught.
  - intros r (choice' & rest' & Hc' & _ & ->)%parse_ok_inv.
    rewrite Hc in Hc'. injection Hc' as <- <-. simpl.
    rewrite Htcs. simpl. rewrite length_map. split; [|done].
    by rewrite list_lookup_fmap, Hi, <- Hraw.
  - intros Hsafe. eexists.
    apply (parse_first_choice_safe response choice rest Hc).
    by rewrite Htcs.
Qed.

(** C6, amended: in a parsed response a missing finish reason has
    become ["stop"] and a missing usage block the empty mapping; and a
    reply with a first choice is parsed, whether or not it has these
    fields, when no payload of that choice makes [json.loads] raise an
    exception other than [JSONDecodeError]. *)
Theorem parse_defaults_missing_fields response choice rest :
  Vendor.choices response = choice :: rest ->
  (forall r, _parse_response json_loads response = Ok r ->
     (Vendor.finish_reason choice = None -> LLMResponse.finish_reason r = "stop") /\
     (Vendor.usage response = None -> LLMResponse.usage r = ∅)) /\
  (payloads_safe json_loads
     (default [] (Vendor.tool_calls (Vendor.message choice))) = true ->
   exists r, _parse_response json_loads response = Ok r).
Proof.
  intros Hc. split.
  - intros r (choice' & rest' & Hc' & _ & ->)%parse_ok_inv.
    rewrite Hc in Hc'. injection Hc' as <- <-. simpl.
    split; by intros ->.
  - intros Hsafe. eexists.
    by apply (parse_first_choice_safe response choice rest Hc).
Qed.

(** C7: when the reply carries a usage block, the usage mapping of
    the parsed response holds its three counters under their names and
    nothing else; the reply is parsed when it has a first choice none of
    whose payloads makes [json.loads] raise an exception other than
    [JSONDecodeError]. *)
Theorem parse_usage_triple response u :
  Vendor.usage response = Some u ->
  (forall r, _parse_response json_loads response = Ok r ->
     (forall k, LLMResponse.usage r !! k = usage_triple u k) /\
     size (LLMResponse.usage r) = 3%nat) /\
  (forall choice rest,
     Vendor.choices response = choice :: rest ->
     payloads_safe json_loads
       (default [] (Vendor.tool_calls (Vendor.message choice))) = true ->
     exists r, _parse_response json_loads response = Ok r).
Proof.
  intros Hu. split.
  - intros r (choice & rest & _ & _ & ->)%parse_ok_inv. simpl. rewrite Hu.
    split; [intros k; apply normalized_usage_lookup | apply normalized_usage_size].
  - intros choice rest Hc Hsafe. eexists.
    by apply (parse_first_choice_safe response choice rest Hc).
Qed.

(** The thinking text is never read. *)
Lemma parse_forget_reasoning response :
  _parse_response json_loads (forget_reasoning response) = _parse_response json_loads response.
Proof.
  destruct (Vendor.choices response) as [|choice rest] eqn:Hc.
  - rewrite !parse_no_choice; [done..|]. simpl. by rewrite Hc.
  - rewrite (parse_first_choice response choice rest Hc).
    rewrite (parse_first_choice (forget_reasoning response)
               (forget_reasoning_choice choice)
               (map forget_reasoning_choice rest)); [done|].
    simpl. by rewrite Hc.
Qed.

(** C9: two replies that are the same once their thinking text is
    blanked are normalized to the same result. *)
Theorem parse_ignores_reasoning r1 r2 :
  forget_reasoning r1 = forget_reasoning r2 ->
  _parse_response json_loads r1 = _parse_response json_loads r2.
Proof.
  intros H. rewrite <- (parse_forget_reasoning r1), H.
  apply parse_forget_reasoning.
Qed.

End ParseFacts.

(** ** Construction *)

Lemma init_key_dollar (environ : gmap string string) name :
  init_key environ (Some ("$" +:+ name))
  = Some (default ("$" +:+ name) (environ !! name)).
Proof. reflexivity. Qed.

(** A key that does not start with [$] is kept, whatever the environment. *)
Lemma init_key_literal (environ : gmap string string) k :
  Str.startswith "$" k = false -> init_key environ (Some k) = Some k.
Proof.
  intros H. unfold init_key. rewrite H. by rewrite andb_false_r.
Qed.

(** What the client is built with: the resolved key, or the placeholder
    when there is none or it is empty. *)
Lemma init_client_api_key (environ : gmap string string) api_key api_base dm :
  AsyncOpenAI.api_key (OpenAIProvider.client (__init__ environ api_key api_base dm))
  = str_or (init_key environ api_key) "dummy-key".
Proof. reflexivity. Qed.

Lemma str_or_nonempty s d : s <> "" -> str_or (Some s) d = s.
Proof. by destruct s. Qed.

(** C2: a configured key [$NAME] resolves to the value of the
    environment variable [NAME] when it is set, and to the configured
    string itself when it is not; the resolved key is the one the client
    is built with, an empty value apart, which the placeholder replaces. *)
Theorem init_key_env_indirection (environ : gmap string string) name
    api_base default_model :
  let configured := "$" +:+ name in
  let client :=
    OpenAIProvider.client
      (__init__ environ (Some configured) api_base default_model) in
  (forall v, environ !! name = Some v ->
     init_key environ (Some configured) = Some v /\
     (v <> "" -> AsyncOpenAI.api_key client = v)) /\
  (environ !! name = None ->
     init_key environ (Some configured) = Some configured /\
     AsyncOpenAI.api_key client = configured).
Proof.
  intros configured client. subst client.
  rewrite init_client_api_key. subst configured. rewrite init_key_dollar.
  split; [intros v Hv | intros Hv]; rewrite Hv; simpl.
  - split; [done|]. apply str_or_nonempty.
  - done.
Qed.

(** ** The request parameters *)

Section KwargsFacts.

Variables (self : OpenAIProvider.t) (messages : list pyval)
  (tools : option (list pyval)) (model : option string)
  (max_tokens : Z) (temperature : spec_float) (enable_thinking : bool)
  (extra_kwargs : gmap string pyval).

Local Abbreviation kwargs :=
  (chat_kwargs self messages tools model max_tokens temperature
     enable_thinking extra_kwargs).

(** [model or self.default_model] *)
Local Abbreviation resolved_model :=
  (str_or model (OpenAIProvider.default_model self)).

(** An entry of the extra parameters is sent as it is. *)
Lemma lookup_extra k v :
  extra_kwargs !! k = Some v -> kwargs !! k = Some v.
Proof. intros H. unfold chat_kwargs. by apply lookup_union_Some_l. Qed.

Lemma wf_extra_kwargs_lookup k :
  wf_extra_kwargs extra_kwargs -> k ∈ chat_params -> extra_kwargs !! k = None.
Proof. intros Hwf Hk. by apply (proj1 (Forall_forall _ _) Hwf). Qed.

Lemma lookup_stream_default :
  extra_kwargs !! "stream" = None -> kwargs !! "stream" = Some (PBool false).
Proof.
  intros H. unfold chat_kwargs. rewrite lookup_union_r by done.
  destruct (_ && _)%bool, (tools_truthy tools); by simplify_map_eq.
Qed.

Lemma lookup_extra_body_default :
  extra_kwargs !! "extra_body" = None ->
  kwargs !! "extra_body" =
    if (enable_thinking && Str.contains "glm" (Str.lower resolved_model))%bool
    then Some thinking_extra_body else None.
Proof.
  intros H. unfold chat_kwargs. rewrite lookup_union_r by done.
  destruct (_ && _)%bool, (tools_truthy tools); by simplify_map_eq.
Qed.

Lemma lookup_tools_default :
  extra_kwargs !! "tools" = None ->
  kwargs !! "tools" =
    if tools_truthy tools then Some (PList (default [] tools)) else None.
Proof.
  intros H. unfold chat_kwargs. rewrite lookup_union_r by done.
  destruct (_ && _)%bool, (tools_truthy tools); by simplify_map_eq.
Qed.

Lemma lookup_tool_choice_default :
  extra_kwargs !! "tool_choice" = None ->
  kwargs !! "tool_choice" =
    if tools_truthy tools then Some (PStr "auto") else None.
Proof.
  intros H. unfold chat_kwargs. rewrite lookup_union_r by done.
  destruct (_ && _)%bool, (tools_truthy tools); by simplify_map_eq.
Qed.

(** C8, amended: the request carries [stream=False] when the extra
    parameters have no [stream] entry; an entry they have is merged last
    and is the one sent. *)
Theorem kwargs_stream :
  let sent :=
    chat_kwargs self messages tools model max_tokens temperature
      enable_thinking extra_kwargs in
  (extra_kwargs !! "stream" = None -> sent !! "stream" = Some (PBool false)) /\
  (forall v, extra_kwargs !! "stream" = Some v -> sent !! "stream" = Some v).
Proof.
  intros sent. split.
  - apply lookup_stream_default.
  - intros v. apply lookup_extra.
Qed.

(** C4, amended: when the extra parameters carry no [extra_body] of
    their own, the request holds the extended-reasoning [extra_body]
    exactly when [enable_thinking] is true and the resolved model
    contains "glm" up to case, and holds no [extra_body] at all
    otherwise. *)
Theorem kwargs_thinking_flag :
  let sent :=
    chat_kwargs self messages tools model max_tokens temperature
      enable_thinking extra_kwargs in
  let resolved := str_or model (OpenAIProvider.default_model self) in
  extra_kwargs !! "extra_body" = None ->
  (sent !! "extra_body" = Some thinking_extra_body <->
     enable_thinking = true /\ Str.substring_nocase "glm" resolved) /\
  (sent !! "extra_body" = None <->
     ~ (enable_thinking = true /\ Str.substring_nocase "glm" resolved)).
Proof.
  intros sent resolved H. subst sent resolved.
  rewrite (lookup_extra_body_default H).
  pose proof (StrFacts.contains_lower_nocase "glm" resolved_model) as Hglm.
  change (Str.lower "glm") with "glm" in Hglm. rewrite <- Hglm.
  destruct enable_thinking, (Str.contains "glm" _); simpl;
    intuition congruence.
Qed.

(** C5, amended: a non-empty [tools] list is sent as it is, with
    [tool_choice="auto"] when the extra parameters carry no
    [tool_choice]; without tools the request has no [tools] entry, and
    no [tool_choice] either when the extra parameters carry none. *)
Theorem kwargs_tools :
  let sent :=
    chat_kwargs self messages tools model max_tokens temperature
      enable_thinking extra_kwargs in
  wf_extra_kwargs extra_kwargs ->
  (forall t ts, tools = Some (t :: ts) ->
     sent !! "tools" = Some (PList (t :: ts)) /\
     (extra_kwargs !! "tool_choice" = None ->
      sent !! "tool_choice" = Some (PStr "auto"))) /\
  (tools = None \/ tools = Some [] ->
     sent !! "tools" = None /\
     (extra_kwargs !! "tool_choice" = None ->
      sent !! "tool_choice" = None)).
Proof.
  intros sent Hwf. subst sent.
  assert (extra_kwargs !! "tools" = None) as Ht.
  { apply wf_extra_kwargs_lookup; [done|]. unfold chat_params. set_solver. }
  rewrite (lookup_tools_default Ht).
  split.
  - intros t ts Heq. split; [by rewrite Heq|].
    intros Hc. by rewrite (lookup_tool_choice_default Hc), Heq.
  - intros [Heq | Heq]; (split; [by rewrite Heq|]);
      intros Hc; by rewrite (lookup_tool_choice_default Hc), Heq.
Qed.

End KwargsFacts.

(** ** The boundary of [chat] *)

Section ChatFacts.

Variable json_loads : string -> result pyval.
Variable create :
  AsyncOpenAI.t -> gmap string pyval -> result Vendor.ChatCompletion.

Variables (self : OpenAIProvider.t) (messages : list pyval)
  (tools : option (list pyval)) (model : option string)
  (max_tokens : Z) (temperature : spec_float) (enable_thinking : bool)
  (extra_kwargs : gmap string pyval).

Local Abbreviation kwargs :=
  (chat_kwargs self messages tools model max_tokens temperature
     enable_thinking extra_kwargs).

Local Abbreviation reply :=
  (chat json_loads create self messages tools model max_tokens temperature
     enable_thinking extra_kwargs).

(** The response built by the [except] branch. *)
Local Abbreviation error_response e :=
  (LLMResponse.mk_default ("Error calling LLM: " +:+ exn_str e) "error").

Lemma error_response_shape e :
  LLMResponse.finish_reason (error_response e) = "error" /\
  Str.startswith "Error calling LLM:" (LLMResponse.content (error_response e)) = true /\
  Str.substring "Error calling LLM:" (LLMResponse.content (error_response e)).
Proof.
  split; [done|]. split; [done|].
  by exists "", (" " +:+ exn_str e).
Qed.

(** [chat] sends the assembled parameters once and parses the reply. *)
Lemma chat_returned response :
  create (OpenAIProvider.client self) kwargs = Ok response ->
  reply = match _parse_response json_loads response with
          | Ok r => Ok r
          | Raise e => Ok (error_response e)
          end.
Proof. intros H. unfold chat. rewrite H. simpl. by destruct (_parse_response _ _). Qed.

Lemma chat_raised e :
  create (OpenAIProvider.client self) kwargs = Raise e ->
  reply = Ok (error_response e).
Proof. intros H. unfold chat. by rewrite H. Qed.

(** C1: [chat] returns a response whatever the network does; when
    the network call raises, the response has finish reason ["error"]
    and its content is "Error calling LLM: " followed by the text of
    the exception. *)
Theorem chat_never_raises :
  let sent :=
    chat_kwargs self messages tools model max_tokens temperature
      enable_thinking extra_kwargs in
  let returned :=
    chat json_loads create self messages tools model max_tokens temperature
      enable_thinking extra_kwargs in
  (exists r, returned = Ok r) /\
  (forall e, create (OpenAIProvider.client self) sent = Raise e ->
     exists r, returned = Ok r /\
       LLMResponse.finish_reason r = "error" /\
       LLMResponse.content r = "Error calling LLM: " +:+ exn_str e /\
       Str.substring "Error calling LLM:" (LLMResponse.content r)).
Proof.
  intros sent returned. subst sent returned. split.
  - destruct (create (OpenAIProvider.client self) kwargs) as [response|e] eqn:Hc.
    + rewrite (chat_returned response Hc).
      destruct (_parse_response _ _); eauto.
    + rewrite (chat_raised e Hc). eauto.
  - intros e Hc. rewrite (chat_raised e Hc). eexists. split; [done|].
    split; [done|]. split; [done|]. apply error_response_shape.
Qed.

(** C10: a reply that the network layer returned but that cannot be
    parsed is turned into the error response as well; with an empty
    choice list the content is "Error calling LLM: list index out of
    range". *)
Theorem chat_parse_failure response :
  let sent :=
    chat_kwargs self messages tools model max_tokens temperature
      enable_thinking extra_kwargs in
  let returned :=
    chat json_loads create self messages tools model max_tokens temperature
      enable_thinking extra_kwargs in
  create (OpenAIProvider.client self) sent = Ok response ->
  (forall e, _parse_response json_loads response = Raise e ->
     returned =
       Ok (LLMResponse.mk_default ("Error calling LLM: " +:+ exn_str e) "error")) /\
  (Vendor.choices response = [] ->
     exists r, returned = Ok r /\
       LLMResponse.finish_reason r = "error" /\
       LLMResponse.content r = "Error calling LLM: list index out of range" /\
       Str.startswith "Error calling LLM:" (LLMResponse.content r) = true).
Proof.
  intros sent returned Hc. subst sent returned.
  rewrite (chat_returned response Hc). split.
  - by intros e ->.
  - intros Hno. rewrite (parse_no_choice json_loads response Hno). eauto.
Qed.

End ChatFacts.

(** * Worked examples *)

(** The network is down: [chat] reports it in the response. *)
Lemma chat_never_raises_witness :
  let create := create_const (Raise connection_error) in
  exists r,
    chat json_loads_literals create nvidia [user_message "hi"] None None
      16384 one_float true ∅ = Ok r /\
    LLMResponse.finish_reason r = "error" /\
    LLMResponse.content r = "Error calling LLM: Connection error." /\
    Str.substring "Error calling LLM:" (LLMResponse.content r).
Proof.
  intros create.
  apply (proj2 (chat_never_raises json_loads_literals create nvidia
                  [user_message "hi"] None None 16384 one_float true ∅)
           connection_error).
  reflexivity.
Defined.

(** [$MY_KEY] with [MY_KEY=abc123], and with [MY_KEY] unset. *)
Lemma init_key_env_indirection_witness :
  let set : gmap string string := {[ "MY_KEY" := "abc123" ]} in
  (init_key set (Some "$MY_KEY") = Some "abc123" /\
   AsyncOpenAI.api_key
     (OpenAIProvider.client (__init__ set (Some "$MY_KEY") None "z-ai/glm4.7"))
   = "abc123") /\
  (init_key ∅ (Some "$MY_KEY") = Some "$MY_KEY" /\
   AsyncOpenAI.api_key
     (OpenAIProvider.client (__init__ ∅ (Some "$MY_KEY") None "z-ai/glm4.7"))
   = "$MY_KEY").
Proof.
  intros set. split.
  - assert (set !! "MY_KEY" = Some "abc123") as Hset by (vm_compute; reflexivity).
    destruct (proj1 (init_key_env_indirection set "MY_KEY" None "z-ai/glm4.7")
                "abc123" Hset) as [Hkey Hclient].
    split; [exact Hkey | apply Hclient; discriminate].
  - assert ((∅ : gmap string string) !! "MY_KEY" = None) as Hunset
      by reflexivity.
    exact (proj2 (init_key_env_indirection ∅ "MY_KEY" None "z-ai/glm4.7") Hunset).
Defined.

(** The payload [{bad] of [sample_reply] is kept under ["raw"]. *)
Lemma parse_invalid_json_arguments_witness :
  tool_call_request json_loads_literals sample_tool_call
  = Ok (ToolCallRequest.mk "call_1" "search" (PDict [("raw", PStr "{bad")])) /\
  exists r,
    _parse_response json_loads_literals (sample_reply None) = Ok r /\
    LLMResponse.tool_calls r !! 0%nat =
      Some (ToolCallRequest.mk "call_1" "search" (PDict [("raw", PStr "{bad")])) /\
    length (LLMResponse.tool_calls r) = 1%nat.
Proof.
  destruct (parse_invalid_json_arguments json_loads_literals (sample_reply None)
              (sample_choice None) [] [sample_tool_call] 0%nat sample_tool_call
              "{bad" (Exn JSONDecodeError "Expecting value")
              eq_refl eq_refl eq_refl eq_refl eq_refl eq_refl)
    as (Hone & Hparsed & Hreturns).
  split; [exact Hone|].
  destruct (Hreturns eq_refl) as [r Hr].
  exists r. split; [exact Hr | exact (Hparsed r Hr)].
Defined.

(** The default model is a GLM model: the flag is sent.  With "gpt-4"
    no [extra_body] is sent. *)
Lemma kwargs_thinking_flag_witness :
  chat_kwargs nvidia [user_message "hi"] None None 16384 one_float true ∅
    !! "extra_body" = Some thinking_extra_body /\
  chat_kwargs nvidia [user_message "hi"] None (Some "gpt-4") 16384 one_float
    true ∅ !! "extra_body" = None.
Proof.
  assert ((∅ : gmap string pyval) !! "extra_body" = None) as Hextra
    by reflexivity.
  split.
  - apply (proj1 (kwargs_thinking_flag nvidia [user_message "hi"] None None
                    16384 one_float true ∅ Hextra)).
    split; [reflexivity|].
    apply StrFacts.contains_lower_nocase. vm_compute. reflexivity.
  - apply (proj2 (kwargs_thinking_flag nvidia [user_message "hi"] None
                    (Some "gpt-4") 16384 one_float true ∅ Hextra)).
    intros [_ Hglm]. apply StrFacts.contains_lower_nocase in Hglm.
    vm_compute in Hglm. discriminate.
Defined.

(** One tool schema and no extra parameters; then no tools at all. *)
Lemma kwargs_tools_witness :
  let with_tools :=
    chat_kwargs nvidia [user_message "hi"] (Some [search_tool]) None 16384
      one_float true ∅ in
  let without_tools :=
    chat_kwargs nvidia [user_message "hi"] (Some []) None 16384
      one_float true ∅ in
  (with_tools !! "tools" = Some (PList [search_tool]) /\
   with_tools !! "tool_choice" = Some (PStr "auto")) /\
  (without_tools !! "tools" = None /\
   without_tools !! "tool_choice" = None).
Proof.
  intros with_tools without_tools.
  assert (wf_extra_kwargs ∅) as Hwf by solve_wf_extra.
  assert ((∅ : gmap string pyval) !! "tool_choice" = None) as Hextra
    by reflexivity.
  split.
  - destruct (proj1 (kwargs_tools nvidia [user_message "hi"]
                       (Some [search_tool]) None 16384 one_float true ∅ Hwf)
                search_tool [] eq_refl) as [Ht Hc].
    split; [exact Ht | exact (Hc Hextra)].
  - destruct (proj2 (kwargs_tools nvidia [user_message "hi"] (Some [])
                       None 16384 one_float true ∅ Hwf)
                (or_intror eq_refl)) as [Ht Hc].
    split; [exact Ht | exact (Hc Hextra)].
Defined.

(** [bare_reply] has neither a finish reason nor a usage block. *)
Lemma parse_defaults_missing_fields_witness :
  exists r,
    _parse_response json_loads_literals bare_reply = Ok r /\
    LLMResponse.finish_reason r = "stop" /\
    LLMResponse.usage r = ∅.
Proof.
  destruct (parse_defaults_missing_fields json_loads_literals bare_reply
              (sample_choice None) [] eq_refl) as [Hparsed Hreturns].
  destruct (Hreturns eq_refl) as [r Hr].
  destruct (Hparsed r Hr) as [Hf Hu].
  exists r. split; [exact Hr|]. split; [exact (Hf eq_refl) | exact (Hu eq_refl)].
Defined.

(** The usage block 10 / 5 / 15 of [sample_reply]. *)
Lemma parse_usage_triple_witness :
  exists r,
    _parse_response json_loads_literals (sample_reply None) = Ok r /\
    LLMResponse.usage r !! "prompt_tokens" = Some 10 /\
    LLMResponse.usage r !! "completion_tokens" = Some 5 /\
    LLMResponse.usage r !! "total_tokens" = Some 15 /\
    LLMResponse.usage r !! "reasoning_tokens" = None /\
    size (LLMResponse.usage r) = 3%nat.
Proof.
  destruct (parse_usage_triple json_loads_literals (sample_reply None)
              sample_usage eq_refl) as [Hparsed Hreturns].
  destruct (Hreturns (sample_choice None) [] eq_refl eq_refl) as [r Hr].
  destruct (Hparsed r Hr) as [Hk Hs].
  exists r. split; [exact Hr|].
  repeat split; [apply (Hk "prompt_tokens") | apply (Hk "completion_tokens")
                | apply (Hk "total_tokens") | apply (Hk "reasoning_tokens")
                | exact Hs].
Defined.

(** No [stream] among the extra parameters: [stream=False] is sent;
    [stream=None] among them: [None] is sent. *)
Lemma kwargs_stream_witness :
  chat_kwargs nvidia [user_message "hi"] None None 16384 one_float true ∅
    !! "stream" = Some (PBool false) /\
  chat_kwargs nvidia [user_message "hi"] None None 16384 one_float true
    {[ "stream" := PNone ]} !! "stream" = Some PNone.
Proof.
  split.
  - apply (proj1 (kwargs_stream nvidia [user_message "hi"] None None 16384
                    one_float true ∅)).
    reflexivity.
  - apply (proj2 (kwargs_stream nvidia [user_message "hi"] None None 16384
                    one_float true {[ "stream" := PNone ]})).
    vm_compute. reflexivity.
Defined.

(** The same reply with and without thinking text. *)
Lemma parse_ignores_reasoning_witness :
  sample_reply (Some "Let me think.") <> sample_reply None /\
  _parse_response json_loads_literals (sample_reply (Some "Let me think."))
  = _parse_response json_loads_literals (sample_reply None).
Proof.
  split; [discriminate|].
  apply (parse_ignores_reasoning json_loads_literals). reflexivity.
Defined.

(** A reply without choices. *)
Lemma chat_parse_failure_witness :
  let create := create_const (Ok (Vendor.mkCompletion [] None)) in
  exists r,
    chat json_loads_literals create nvidia [user_message "hi"] None None
      16384 one_float true ∅ = Ok r /\
    LLMResponse.finish_reason r = "error" /\
    LLMResponse.content r = "Error calling LLM: list index out of range" /\
    Str.startswith "Error calling LLM:" (LLMResponse.content r) = true.
Proof.
  intros create.
  apply (proj2 (chat_parse_failure json_loads_literals create nvidia
                  [user_message "hi"] None None 16384 one_float true ∅
                  (Vendor.mkCompletion [] None) eq_refl)).
  reflexivity.
Defined.

(** * Extra parameters that override the assembled ones *)

(** C8 as stated fails: [chat(messages, stream=True)] puts [stream]
    among the extra parameters, and the request that is sent carries
    [stream=True]. *)
Lemma stream_override :
  wf_extra_kwargs {[ "stream" := PBool true ]} /\
  streaming_kwargs !! "stream" = Some (PBool true) /\
  streaming_kwargs !! "stream" <> Some (PBool false).
Proof.
  split; [solve_wf_extra|].
  assert (streaming_kwargs !! "stream" = Some (PBool true)) as H
    by (vm_compute; reflexivity).
  split; [exact H|]. rewrite H. discriminate.
Qed.

(** The vendor sees the override: a network that refuses streaming
    refuses this call. *)
Lemma refused_when_streaming :
  chat json_loads_literals create_no_stream nvidia [user_message "hi"] None
    None 16384 one_float true {[ "stream" := PBool true ]}
  = Ok (LLMResponse.mk_default "Error calling LLM: streaming refused" "error").
Proof. vm_compute. reflexivity. Qed.

(** C4 as stated fails: with the model "gpt-4", which does not contain
    "glm", and [enable_thinking=True], an [extra_body] given among the
    extra parameters is sent, extended-reasoning flag included. *)
Lemma extra_body_override :
  wf_extra_kwargs {[ "extra_body" := thinking_extra_body ]} /\
  ~ (gpt4_thinking_kwargs !! "extra_body" = Some thinking_extra_body <->
     true = true /\ Str.substring_nocase "glm" "gpt-4").
Proof.
  split; [solve_wf_extra|].
  intros [Hflag _].
  assert (gpt4_thinking_kwargs !! "extra_body" = Some thinking_extra_body) as H
    by (vm_compute; reflexivity).
  destruct (Hflag H) as [_ Hglm].
  apply (StrFacts.contains_lower_nocase "glm" "gpt-4") in Hglm.
  vm_compute in Hglm. discriminate.
Qed.

(** C5 as stated fails: without tools, a [tool_choice] given among the
    extra parameters is sent; with tools, it replaces ["auto"]. *)
Lemma tool_choice_override :
  let extra : gmap string pyval := {[ "tool_choice" := PStr "none" ]} in
  let without_tools :=
    chat_kwargs nvidia [user_message "hi"] None None 16384 one_float true extra in
  let with_tools :=
    chat_kwargs nvidia [user_message "hi"] (Some [search_tool]) None 16384
      one_float true extra in
  wf_extra_kwargs extra /\
  without_tools !! "tool_choice" <> None /\
  with_tools !! "tools" = Some (PList [search_tool]) /\
  with_tools !! "tool_choice" <> Some (PStr "auto").
Proof.
  intros extra without_tools with_tools.
  split; [solve_wf_extra|].
  assert (without_tools !! "tool_choice" = Some (PStr "none")) as H1
    by (vm_compute; reflexivity).
  assert (with_tools !! "tool_choice" = Some (PStr "none")) as H2
    by (vm_compute; reflexivity).
  rewrite H1, H2. split; [discriminate|]. split; [|discriminate].
  vm_compute. reflexivity.
Qed.

(** * Further properties *)

(** ** Construction *)

Lemma str_or_default_nonempty x d : d <> "" -> str_or x d <> "".
Proof. intros Hd. by destruct x as [[|c s]|]. Qed.

(** X1: whatever the configuration and the environment, the client
    is built with a key and a base URL that are not empty. *)
Theorem init_client_never_empty (environ : gmap string string)
    api_key api_base default_model :
  let client :=
    OpenAIProvider.client (__init__ environ api_key api_base default_model) in
  AsyncOpenAI.api_key client <> "" /\ AsyncOpenAI.base_url client <> "".
Proof.
  intros client. subst client. simpl.
  split; by apply str_or_default_nonempty.
Qed.

(** X2: the environment is read through a [$] key only: with no key,
    or a key that does not start with [$], the provider built is the same
    in every environment, and a non-empty such key reaches the client
    unchanged. *)
Theorem init_literal_key_ignores_environ (e1 e2 : gmap string string)
    api_key api_base default_model :
  (forall k, api_key = Some k -> Str.startswith "$" k = false) ->
  __init__ e1 api_key api_base default_model
  = __init__ e2 api_key api_base default_model /\
  (forall k, api_key = Some k -> k <> "" ->
     AsyncOpenAI.api_key
       (OpenAIProvider.client (__init__ e1 api_key api_base default_model)) = k).
Proof.
  intros Hlit. destruct api_key as [k|]; [|done].
  unfold __init__. rewrite !init_key_literal by by apply Hlit.
  split; [done|]. intros k' [= <-] Hk. by apply str_or_nonempty.
Qed.

(** X3: the placeholder ["dummy-key"] is what the client gets when no
    key is configured, when the configured key is empty, and when the
    key is [$NAME] with the variable [NAME] set to the empty string. *)
Theorem init_placeholder_key (environ : gmap string string) api_base
    default_model :
  let key_of api_key :=
    AsyncOpenAI.api_key
      (OpenAIProvider.client (__init__ environ api_key api_base default_model)) in
  key_of None = "dummy-key" /\
  key_of (Some "") = "dummy-key" /\
  (forall name, environ !! name = Some "" ->
     key_of (Some ("$" +:+ name)) = "dummy-key").
Proof.
  intros key_of. subst key_of. cbv beta.
  split; [reflexivity|]. split; [reflexivity|].
  intros name Hname. by rewrite init_client_api_key, init_key_dollar, Hname.
Qed.

(** ** The shape of a parsed reply *)

Section ParseShape.

Variable json_loads : string -> result pyval.

(** X4: the three outcomes of [_parse_response] on a reply: without
    a choice it raises the [IndexError] of the first-choice access; with
    a choice none of whose payloads makes [json.loads] raise an exception
    other than [JSONDecodeError] it returns; and when the first payload
    that does so raises [e], it raises [e]. *)
Theorem parse_outcomes response :
  (Vendor.choices response = [] ->
   exists e, _parse_response json_loads response = Raise e /\
     exn_cls e = IndexError) /\
  (forall choice rest,
     Vendor.choices response = choice :: rest ->
     payloads_safe json_loads
       (default [] (Vendor.tool_calls (Vendor.message choice))) = true ->
     exists r, _parse_response json_loads response = Ok r) /\
  (forall choice rest before tc after s e,
     Vendor.choices response = choice :: rest ->
     Vendor.tool_calls (Vendor.message choice)
     = Some (before ++ tc :: after)%list ->
     payloads_safe json_loads before = true ->
     Vendor.arguments (Vendor.function tc) = PStr s ->
     json_loads s = Raise e ->
     is_JSONDecodeError e = false ->
     _parse_response json_loads response = Raise e).
Proof.
  split; [|split].
  - intros Hc. rewrite (parse_no_choice json_loads response Hc). by eexists.
  - intros choice rest Hc Hsafe. eexists.
    by apply (parse_first_choice_safe json_loads response choice rest Hc).
  - intros choice rest before tc after s e Hc Htcs Hbefore Hargs Hraise Hclass.
    rewrite (parse_first_choice json_loads response choice rest Hc), Htcs.
    simpl.
    by rewrite (tool_call_requests_raise json_loads before tc after s e
                  Hbefore Hargs Hraise Hclass).
Qed.

(** X5: only the first choice is read: two replies with the same
    first choice and the same usage block are parsed to the same
    response, whatever choices follow. *)
Theorem parse_reads_first_choice_only choice rest1 rest2 usage :
  _parse_response json_loads (Vendor.mkCompletion (choice :: rest1) usage)
  = _parse_response json_loads (Vendor.mkCompletion (choice :: rest2) usage).
Proof.
  by rewrite
    (parse_first_choice json_loads (Vendor.mkCompletion (choice :: rest1) usage)
       choice rest1 eq_refl),
    (parse_first_choice json_loads (Vendor.mkCompletion (choice :: rest2) usage)
       choice rest2 eq_refl).
Qed.

(** X6: in a parsed response the requests are one per vendor tool
    call of the first choice and in the vendor's order, with the ids and
    the names unchanged; without tool calls the list is empty.  The
    reply is parsed when none of the payloads makes [json.loads] raise an
    exception other than [JSONDecodeError]. *)
Theorem parse_tool_calls_in_order response choice rest :
  Vendor.choices response = choice :: rest ->
  let tcs := default [] (Vendor.tool_calls (Vendor.message choice)) in
  (forall r, _parse_response json_loads response = Ok r ->
     map ToolCallRequest.id (LLMResponse.tool_calls r) = map Vendor.id tcs /\
     map ToolCallRequest.name (LLMResponse.tool_calls r)
     = map (fun tc => Vendor.name (Vendor.function tc)) tcs) /\
  (payloads_safe json_loads tcs = true ->
   exists r, _parse_response json_loads response = Ok r).
Proof.
  intros Hc tcs. split.
  - intros r (choice' & rest' & Hc' & _ & ->)%parse_ok_inv.
    rewrite Hc in Hc'. injection Hc' as <- <-. simpl. fold tcs.
    by rewrite !map_map.
  - intros Hsafe. eexists.
    by apply (parse_first_choice_safe json_loads response choice rest Hc).
Qed.

(** X7: in a parsed response, a string payload that [json.loads]
    accepts has been replaced by the decoded value, and a payload that is
    not a string has been passed on as it is, at the position of its tool
    call.  The reply is parsed when none of the payloads makes
    [json.loads] raise an exception other than [JSONDecodeError]. *)
Theorem parse_decodes_arguments response choice rest tcs (i : nat) tc :
  Vendor.choices response = choice :: rest ->
  Vendor.tool_calls (Vendor.message choice) = Some tcs ->
  tcs !! i = Some tc ->
  (forall r, _parse_response json_loads response = Ok r ->
     exists request,
       LLMResponse.tool_calls r !! i = Some request /\
       (forall s v, Vendor.arguments (Vendor.function tc) = PStr s ->
          json_loads s = Ok v -> ToolCallRequest.arguments request = v) /\
       ((forall s, Vendor.arguments (Vendor.function tc) <> PStr s) ->
          ToolCallRequest.arguments request
          = Vendor.arguments (Vendor.function tc))) /\
  (payloads_safe json_loads tcs = true ->
   exists r, _parse_response json_loads response = Ok r).
Proof.
  intros Hc Htcs Hi. split.
  - intros r (choice' & rest' & Hc' & _ & ->)%parse_ok_inv.
    rewrite Hc in Hc'. injection Hc' as <- <-.
    exists (normalized_request json_loads tc). simpl. rewrite Htcs. simpl.
    split; [by rewrite list_lookup_fmap, Hi|].
    unfold normalized_arguments. split.
    + by intros s v -> ->.
    + intros Hns. destruct (Vendor.arguments _) as [| | | |s| |]; try done.
      by destruct (Hns s).
  - intros Hsafe. eexists.
    apply (parse_first_choice_safe json_loads response choice rest Hc).
    by rewrite Htcs.
Qed.

(** X8: the usage mapping of a parsed response is empty exactly when
    the reply has no usage block: a block that counts zero tokens is
    still reported.  The reply is parsed when it has a first choice none
    of whose payloads makes [json.loads] raise an exception other than
    [JSONDecodeError]. *)
Theorem parse_usage_empty_iff response :
  (forall r, _parse_response json_loads response = Ok r ->
     (LLMResponse.usage r = ∅ <-> Vendor.usage response = None)) /\
  (forall choice rest,
     Vendor.choices response = choice :: rest ->
     payloads_safe json_loads
       (default [] (Vendor.tool_calls (Vendor.message choice))) = true ->
     exists r, _parse_response json_loads response = Ok r).
Proof.
  split.
  - intros r (choice & rest & _ & _ & ->)%parse_ok_inv. simpl.
    destruct (Vendor.usage response) as [u|]; [|done].
    split; [|done]. intros Hempty.
    apply (f_equal (fun m : gmap string Z => m !! "prompt_tokens")) in Hempty.
    rewrite normalized_usage_lookup in Hempty. done.
  - intros choice rest Hc Hsafe. eexists.
    by apply (parse_first_choice_safe json_loads response choice rest Hc).
Qed.

(** X9: the finish reason of a parsed response is never empty: a
    vendor finish reason that is not empty is echoed, and an empty one
    becomes ["stop"].  The reply is parsed when none of the payloads of
    its first choice makes [json.loads] raise an exception other than
    [JSONDecodeError]. *)
Theorem parse_finish_reason response choice rest :
  Vendor.choices response = choice :: rest ->
  (forall r, _parse_response json_loads response = Ok r ->
     LLMResponse.finish_reason r <> "" /\
     (forall f, Vendor.finish_reason choice = Some f -> f <> "" ->
        LLMResponse.finish_reason r = f) /\
     (Vendor.finish_reason choice = Some "" ->
        LLMResponse.finish_reason r = "stop")) /\
  (payloads_safe json_loads
     (default [] (Vendor.tool_calls (Vendor.message choice))) = true ->
   exists r, _parse_response json_loads response = Ok r).
Proof.
  intros Hc. split.
  - intros r (choice' & rest' & Hc' & _ & ->)%parse_ok_inv.
    rewrite Hc in Hc'. injection Hc' as <- <-. simpl.
    split; [by apply str_or_default_nonempty|]. split.
    + intros f -> Hf. by apply str_or_nonempty.
    + by intros ->.
  - intros Hsafe. eexists.
    by apply (parse_first_choice_safe json_loads response choice rest Hc).
Qed.

End ParseShape.

(** ** The shape of a request *)

Section RequestShape.

Variables (self : OpenAIProvider.t) (messages : list pyval)
  (tools : option (list pyval)) (model : option string)
  (max_tokens : Z) (temperature : spec_float) (enable_thinking : bool)
  (extra_kwargs : gmap string pyval).

Ltac solve_named_lookup Hwf :=
  unfold chat_kwargs;
  rewrite lookup_union_r
    by (apply wf_extra_kwargs_lookup; [exact Hwf | unfold chat_params; set_solver]);
  destruct (_ && _)%bool, (tools_truthy tools); by simplify_map_eq.

(** X10: the model, the messages, the temperature and the token limit
    are sent as [chat] received them: they are parameters of [chat], so
    the extra parameters cannot replace them. *)
Theorem kwargs_named_parameters :
  let sent :=
    chat_kwargs self messages tools model max_tokens temperature
      enable_thinking extra_kwargs in
  wf_extra_kwargs extra_kwargs ->
  sent !! "model"
    = Some (PStr (str_or model (OpenAIProvider.default_model self))) /\
  sent !! "messages" = Some (PList messages) /\
  sent !! "temperature" = Some (PFloat temperature) /\
  sent !! "max_tokens" = Some (PInt max_tokens).
Proof.
  intros sent Hwf. subst sent.
  split; [solve_named_lookup Hwf|].
  split; [solve_named_lookup Hwf|].
  split; solve_named_lookup Hwf.
Qed.

(** X11: every extra parameter is sent as it is, and the request has
    no other keys than those of the extra parameters, the five fixed
    ones, [extra_body] when thinking is switched on for a GLM model, and
    [tools] with [tool_choice] when tools are given. *)
Theorem kwargs_keys :
  let sent :=
    chat_kwargs self messages tools model max_tokens temperature
      enable_thinking extra_kwargs in
  let resolved := str_or model (OpenAIProvider.default_model self) in
  extra_kwargs ⊆ sent /\
  dom sent =
    dom extra_kwargs
    ∪ {[ "model"; "messages"; "temperature"; "max_tokens"; "stream" ]}
    ∪ (if (enable_thinking && Str.contains "glm" (Str.lower resolved))%bool
       then {[ "extra_body" ]} else ∅)
    ∪ (if tools_truthy tools then {[ "tools"; "tool_choice" ]} else ∅).
Proof.
  intros sent resolved. subst sent resolved. unfold chat_kwargs.
  split; [apply map_union_subseteq_l|].
  rewrite dom_union_L.
  destruct (_ && _)%bool, (tools_truthy tools);
    rewrite ?dom_insert_L, dom_singleton_L;
    apply set_eq; intros k; rewrite !elem_of_union, ?elem_of_singleton,
      ?elem_of_empty; tauto.
Qed.

End RequestShape.

(** X12: the default model given at construction is the one
    [get_default_model] returns and the one [chat] sends when it is
    called without a model, or with an empty one; a model that is not
    empty is sent instead. *)
Theorem default_model_round_trip (environ : gmap string string)
    api_key api_base default_model messages tools model max_tokens
    temperature enable_thinking (extra_kwargs : gmap string pyval) :
  let self := __init__ environ api_key api_base default_model in
  let sent :=
    chat_kwargs self messages tools model max_tokens temperature
      enable_thinking extra_kwargs in
  wf_extra_kwargs extra_kwargs ->
  get_default_model self = default_model /\
  (model = None \/ model = Some "" ->
     sent !! "model" = Some (PStr default_model)) /\
  (forall m, model = Some m -> m <> "" -> sent !! "model" = Some (PStr m)).
Proof.
  intros self sent Hwf. split; [done|].
  assert (sent !! "model" = Some (PStr (str_or model default_model))) as ->.
  { subst sent. unfold chat_kwargs.
    rewrite lookup_union_r
      by (apply wf_extra_kwargs_lookup; [done | unfold chat_params; set_solver]).
    destruct (_ && _)%bool, (tools_truthy tools); by simplify_map_eq. }
  split.
  - by intros [-> | ->].
  - intros m -> Hm. by rewrite str_or_nonempty.
Qed.

(** ** The outcome of [chat] *)

Section ChatOutcome.

Variable json_loads : string -> result pyval.

Variables (self : OpenAIProvider.t) (messages : list pyval)
  (tools : option (list pyval)) (model : option string)
  (max_tokens : Z) (temperature : spec_float) (enable_thinking : bool)
  (extra_kwargs : gmap string pyval).

(** X13: when the network returns a reply that has a choice, none of
    whose payloads makes [json.loads] raise an exception other than
    [JSONDecodeError], [chat] returns what [_parse_response] makes of
    it, unchanged; its content is the text of the first choice, or the
    empty string when there is none. *)
Theorem chat_returns_parsed_reply create response choice rest :
  let sent :=
    chat_kwargs self messages tools model max_tokens temperature
      enable_thinking extra_kwargs in
  let returned :=
    chat json_loads create self messages tools model max_tokens temperature
      enable_thinking extra_kwargs in
  create (OpenAIProvider.client self) sent = Ok response ->
  Vendor.choices response = choice :: rest ->
  payloads_safe json_loads
    (default [] (Vendor.tool_calls (Vendor.message choice))) = true ->
  returned = _parse_response json_loads response /\
  exists r, returned = Ok r /\
    LLMResponse.content r = str_or (Vendor.content (Vendor.message choice)) "".
Proof.
  intros sent returned Hcreate Hc Hsafe. subst sent returned.
  rewrite (chat_returned json_loads create _ _ _ _ _ _ _ _ response Hcreate).
  rewrite (parse_first_choice_safe json_loads response choice rest Hc Hsafe).
  split; [done|]. by eexists.
Qed.

(** X14: the finish reason of the response [chat] returns is never
    empty, whatever the network answers. *)
Theorem chat_finish_reason_nonempty create r :
  chat json_loads create self messages tools model max_tokens temperature
    enable_thinking extra_kwargs = Ok r ->
  LLMResponse.finish_reason r <> "".
Proof.
  destruct (create (OpenAIProvider.client self)
              (chat_kwargs self messages tools model max_tokens temperature
                 enable_thinking extra_kwargs)) as [response|e] eqn:Hcreate.
  - rewrite (chat_returned json_loads create _ _ _ _ _ _ _ _ response Hcreate).
    destruct (_parse_response json_loads response) as [parsed|e] eqn:Hparse.
    + apply parse_ok_inv in Hparse as (choice & rest & _ & _ & ->).
      intros [= <-]. simpl. by apply str_or_default_nonempty.
    + by intros [= <-].
  - rewrite (chat_raised json_loads create _ _ _ _ _ _ _ _ e Hcreate).
    by intros [= <-].
Qed.

(** X15: the thinking text does not reach the caller of [chat]: two
    networks whose answers to the request differ in thinking text only
    lead to the same result. *)
Theorem chat_ignores_reasoning create1 create2 response1 response2 :
  let sent :=
    chat_kwargs self messages tools model max_tokens temperature
      enable_thinking extra_kwargs in
  create1 (OpenAIProvider.client self) sent = Ok response1 ->
  create2 (OpenAIProvider.client self) sent = Ok response2 ->
  forget_reasoning response1 = forget_reasoning response2 ->
  chat json_loads create1 self messages tools model max_tokens temperature
    enable_thinking extra_kwargs
  = chat json_loads create2 self messages tools model max_tokens temperature
      enable_thinking extra_kwargs.
Proof.
  intros sent H1 H2 Hsame. subst sent.
  rewrite (chat_returned json_loads create1 _ _ _ _ _ _ _ _ response1 H1).
  rewrite (chat_returned json_loads create2 _ _ _ _ _ _ _ _ response2 H2).
  rewrite <- (parse_forget_reasoning json_loads response1).
  rewrite <- (parse_forget_reasoning json_loads response2).
  by rewrite Hsame.
Qed.

End ChatOutcome.

(** ** Worked examples, continued *)

(** A literal key in two different environments. *)
Lemma init_literal_key_ignores_environ_witness :
  let e1 : gmap string string := {[ "nvapi-1" := "other" ]} in
  __init__ e1 (Some "nvapi-1") None "z-ai/glm4.7"
  = __init__ ∅ (Some "nvapi-1") None "z-ai/glm4.7" /\
  AsyncOpenAI.api_key
    (OpenAIProvider.client (__init__ e1 (Some "nvapi-1") None "z-ai/glm4.7"))
  = "nvapi-1".
Proof.
  intros e1.
  assert (forall k, Some "nvapi-1" = Some k -> Str.startswith "$" k = false)
    as Hlit by (intros k [= <-]; reflexivity).
  destruct (init_literal_key_ignores_environ e1 ∅ (Some "nvapi-1") None
              "z-ai/glm4.7" Hlit) as [Hsame Hkey].
  split; [exact Hsame | apply Hkey; [reflexivity | discriminate]].
Defined.

(** [$EMPTY] with [EMPTY] set to the empty string. *)
Lemma init_placeholder_key_witness :
  AsyncOpenAI.api_key
    (OpenAIProvider.client
       (__init__ {[ "EMPTY" := "" ]} (Some "$EMPTY") None "z-ai/glm4.7"))
  = "dummy-key".
Proof.
  apply (proj2 (proj2 (init_placeholder_key {[ "EMPTY" := "" ]} None
                         "z-ai/glm4.7")) "EMPTY").
  vm_compute. reflexivity.
Defined.

(** A reply without choices fails with [IndexError]; [tools_reply] is
    parsed; [nested_reply] fails with the [RecursionError] of its second
    tool call. *)
Lemma parse_outcomes_witness :
  (exists e,
     _parse_response json_loads_literals (Vendor.mkCompletion [] None) = Raise e /\
     exn_cls e = IndexError) /\
  (exists r, _parse_response json_loads_literals tools_reply = Ok r) /\
  _parse_response json_loads_literals nested_reply
  = Raise (Exn (OtherError "RecursionError") "maximum recursion depth exceeded").
Proof.
  split; [|split].
  - apply (proj1 (parse_outcomes json_loads_literals
                    (Vendor.mkCompletion [] None))).
    reflexivity.
  - apply (proj1 (proj2 (parse_outcomes json_loads_literals tools_reply))
             tools_choice [sample_choice None]); reflexivity.
  - apply (proj2 (proj2 (parse_outcomes json_loads_literals nested_reply))
             nested_choice [] [decoded_tool_call] nested_tool_call
             [structured_tool_call]
             (str_repeat "[" 1100)
             (Exn (OtherError "RecursionError") "maximum recursion depth exceeded"));
      vm_compute; reflexivity.
Defined.

(** The three tool calls of [tools_reply], in order. *)
Lemma parse_tool_calls_in_order_witness :
  exists r,
    _parse_response json_loads_literals tools_reply = Ok r /\
    map ToolCallRequest.id (LLMResponse.tool_calls r)
    = ["call_2"; "call_1"; "call_3"] /\
    map ToolCallRequest.name (LLMResponse.tool_calls r)
    = ["list_dir"; "search"; "read_file"].
Proof.
  destruct (parse_tool_calls_in_order json_loads_literals tools_reply
              tools_choice [sample_choice None] eq_refl)
    as [Hparsed Hreturns].
  destruct (Hreturns eq_refl) as [r Hr].
  exists r. split; [exact Hr | exact (Hparsed r Hr)].
Defined.

(** The payload [{}] of the first tool call is decoded, the dictionary
    of the third is passed on. *)
Lemma parse_decodes_arguments_witness :
  (exists r request,
     _parse_response json_loads_literals tools_reply = Ok r /\
     LLMResponse.tool_calls r !! 0%nat = Some request /\
     ToolCallRequest.arguments request = PDict []) /\
  (exists r request,
     _parse_response json_loads_literals tools_reply = Ok r /\
     LLMResponse.tool_calls r !! 2%nat = Some request /\
     ToolCallRequest.arguments request = PDict [("path", PStr "a.txt")]).
Proof.
  split.
  - destruct (parse_decodes_arguments json_loads_literals tools_reply
                tools_choice [sample_choice None]
                [decoded_tool_call; sample_tool_call; structured_tool_call]
                0%nat decoded_tool_call eq_refl eq_refl eq_refl)
      as [Hparsed Hreturns].
    destruct (Hreturns eq_refl) as [r Hr].
    destruct (Hparsed r Hr) as (request & Hi & Hdecoded & _).
    exists r, request. split; [exact Hr|]. split; [exact Hi|].
    apply (Hdecoded "{}" (PDict [])); reflexivity.
  - destruct (parse_decodes_arguments json_loads_literals tools_reply
                tools_choice [sample_choice None]
                [decoded_tool_call; sample_tool_call; structured_tool_call]
                2%nat structured_tool_call eq_refl eq_refl eq_refl)
      as [Hparsed Hreturns].
    destruct (Hreturns eq_refl) as [r Hr].
    destruct (Hparsed r Hr) as (request & Hi & _ & Hpassed).
    exists r, request. split; [exact Hr|]. split; [exact Hi|].
    apply Hpassed. intros s. discriminate.
Defined.

(** [idle_reply] has a usage block of zeros: the mapping is not empty. *)
Lemma parse_usage_empty_iff_witness :
  exists r,
    _parse_response json_loads_literals idle_reply = Ok r /\
    LLMResponse.usage r <> ∅.
Proof.
  destruct (parse_usage_empty_iff json_loads_literals idle_reply)
    as [Hparsed Hreturns].
  destruct (Hreturns idle_choice [] eq_refl eq_refl) as [r Hr].
  exists r. split; [exact Hr|].
  intros Hempty. apply (Hparsed r Hr) in Hempty. discriminate.
Defined.

(** The finish reason ["tool_calls"] is echoed, the empty one of
    [idle_reply] becomes ["stop"]. *)
Lemma parse_finish_reason_witness :
  (exists r,
     _parse_response json_loads_literals tools_reply = Ok r /\
     LLMResponse.finish_reason r = "tool_calls") /\
  (exists r,
     _parse_response json_loads_literals idle_reply = Ok r /\
     LLMResponse.finish_reason r = "stop").
Proof.
  split.
  - destruct (parse_finish_reason json_loads_literals tools_reply tools_choice
                [sample_choice None] eq_refl) as [Hparsed Hreturns].
    destruct (Hreturns eq_refl) as [r Hr].
    destruct (Hparsed r Hr) as (_ & Hecho & _).
    exists r. split; [exact Hr|].
    apply Hecho; [reflexivity | discriminate].
  - destruct (parse_finish_reason json_loads_literals idle_reply idle_choice
                [] eq_refl) as [Hparsed Hreturns].
    destruct (Hreturns eq_refl) as [r Hr].
    destruct (Hparsed r Hr) as (_ & _ & Hstop).
    exists r. split; [exact Hr|]. apply Hstop. reflexivity.
Defined.

(** A call with [stream=True] among the extra parameters still sends
    the model and the token limit it was given. *)
Lemma kwargs_named_parameters_witness :
  streaming_kwargs !! "model" = Some (PStr "z-ai/glm4.7") /\
  streaming_kwargs !! "messages" = Some (PList [user_message "hi"]) /\
  streaming_kwargs !! "temperature" = Some (PFloat one_float) /\
  streaming_kwargs !! "max_tokens" = Some (PInt 16384).
Proof.
  apply (kwargs_named_parameters nvidia [user_message "hi"] None None 16384
           one_float true {[ "stream" := PBool true ]}).
  solve_wf_extra.
Defined.

(** A provider built with the model "gpt-4", called without a model
    and with one. *)
Lemma default_model_round_trip_witness :
  let self := __init__ ∅ None None "gpt-4" in
  get_default_model self = "gpt-4" /\
  chat_kwargs self [user_message "hi"] None (Some "") 16384 one_float true ∅
    !! "model" = Some (PStr "gpt-4") /\
  chat_kwargs self [user_message "hi"] None (Some "glm-4") 16384 one_float
    true ∅ !! "model" = Some (PStr "glm-4").
Proof.
  intros self.
  assert (wf_extra_kwargs ∅) as Hwf by solve_wf_extra.
  destruct (default_model_round_trip ∅ None None "gpt-4" [user_message "hi"]
              None (Some "") 16384 one_float true ∅ Hwf)
    as (Hget & Hdefault & _).
  destruct (default_model_round_trip ∅ None None "gpt-4" [user_message "hi"]
              None (Some "glm-4") 16384 one_float true ∅ Hwf)
    as (_ & _ & Hgiven).
  split; [exact Hget|]. split.
  - apply Hdefault. right. reflexivity.
  - apply (Hgiven "glm-4"); [reflexivity | discriminate].
Defined.

(** The network answers [sample_reply]: [chat] returns its content. *)
Lemma chat_returns_parsed_reply_witness :
  let create := create_const (Ok (sample_reply None)) in
  exists r,
    chat json_loads_literals create nvidia [user_message "hi"] None None
      16384 one_float true ∅ = Ok r /\
    LLMResponse.content r = "hello".
Proof.
  intros create.
  exact (proj2 (chat_returns_parsed_reply json_loads_literals nvidia
                  [user_message "hi"] None None 16384 one_float true ∅ create
                  (sample_reply None) (sample_choice None) [] eq_refl eq_refl
                  eq_refl)).
Defined.

(** The network is down: the finish reason is not empty. *)
Lemma chat_finish_reason_nonempty_witness :
  LLMResponse.finish_reason
    (LLMResponse.mk_default "Error calling LLM: Connection error." "error")
  <> "".
Proof.
  apply (chat_finish_reason_nonempty json_loads_literals nvidia
           [user_message "hi"] None None 16384 one_float true ∅
           (create_const (Raise connection_error))).
  reflexivity.
Defined.

(** One network adds thinking text to [sample_reply], the other does
    not. *)
Lemma chat_ignores_reasoning_witness :
  chat json_loads_literals (create_const (Ok (sample_reply (Some "Hmm."))))
    nvidia [user_message "hi"] None None 16384 one_float true ∅
  = chat json_loads_literals (create_const (Ok (sample_reply None)))
      nvidia [user_message "hi"] None None 16384 one_float true ∅.
Proof.
  apply (chat_ignores_reasoning json_loads_literals nvidia [user_message "hi"]
           None None 16384 one_float true ∅
           (create_const (Ok (sample_reply (Some "Hmm."))))
           (create_const (Ok (sample_reply None)))
           (sample_reply (Some "Hmm.")) (sample_reply None));
    reflexivity.
Defined.

(** * Payloads on which the decoder raises another exception *)

(** C3 as stated fails: the payload of 1100 opening brackets is a
    string that is not valid JSON, and [json.loads] raises
    [RecursionError] on it, which line 123 does not catch: the arguments
    are not wrapped under ["raw"] and the response is not parsed. *)
Lemma nested_payload_not_wrapped :
  Vendor.arguments (Vendor.function nested_tool_call)
  = PStr (str_repeat "[" 1100) /\
  (exists e, json_loads_literals (str_repeat "[" 1100) = Raise e /\
     exn_cls e = OtherError "RecursionError") /\
  ~ (exists r, _parse_response json_loads_literals nested_reply = Ok r).
Proof.
  split; [reflexivity|]. split.
  - eexists. split; vm_compute; reflexivity.
  - assert (_parse_response json_loads_literals nested_reply
            = Raise (Exn (OtherError "RecursionError")
                       "maximum recursion depth exceeded")) as H
      by (vm_compute; reflexivity).
    rewrite H. intros [r Hr]. discriminate.
Qed.

(** C6 as stated fails: [huge_integer_reply] has a first choice, no
    finish reason and no usage block, and is not parsed: [json.loads]
    raises [ValueError] on the payload of its tool call. *)
Lemma missing_fields_not_parsed :
  Vendor.choices huge_integer_reply = [huge_integer_choice] /\
  Vendor.finish_reason huge_integer_choice = None /\
  Vendor.usage huge_integer_reply = None /\
  ~ (exists r, _parse_response json_loads_literals huge_integer_reply = Ok r).
Proof.
  split; [reflexivity|]. split; [reflexivity|]. split; [reflexivity|].
  assert (_parse_response json_loads_literals huge_integer_reply
          = Raise (Exn (OtherError "ValueError")
                     "Exceeds the limit (4300 digits) for integer string conversion"))
    as H by (vm_compute; reflexivity).
  rewrite H. intros [r Hr]. discriminate.
Qed.

(** [chat] turns that exception into the error response. *)
Lemma huge_integer_chat_error :
  chat json_loads_literals (create_const (Ok huge_integer_reply)) nvidia
    [user_message "hi"] None None 16384 one_float true ∅
  = Ok (LLMResponse.mk_default
          "Error calling LLM: Exceeds the limit (4300 digits) for integer string conversion"
          "error").
Proof. vm_compute. reflexivity. Qed.
